(** * Component controller: derived resources and the reconciliation pass

    A shallow embedding of [pkg/controller/component/component_resources.go]
    (the four template builders) together with the reconciliation pass that
    applies them to the cluster store, and the properties the design document
    states about them.

    Go structs become records (one module per struct, so that the Go field
    names can be kept), pointers become [option], Go maps become [gmap],
    [int32] fields become [Z] and unset fields take Go's zero value. *)

From stdpp Require Import base option list strings gmap fin_maps.
From Stdlib Require Import ZArith.

Local Open Scope string_scope.
Local Open Scope Z_scope.

(** ** k8s.io/apimachinery/pkg/apis/meta/v1 and k8s.io/api/core/v1 *)

Module ObjectMeta.
Record t : Type := mk {
  Name : string;
  Namespace : string;
  Labels : gmap string string
}.
End ObjectMeta.

Module ObjectReference.
Record t : Type := mk {
  Kind : string;
  Namespace : string;
  Name : string
}.
End ObjectReference.

Definition ProtocolTCP : string := "TCP".

Module ContainerPort.
Record t : Type := mk {
  ContainerPort : Z;
  Protocol : string
}.
End ContainerPort.

Module Container.
Record t : Type := mk {
  Name : string;
  Image : string;
  Ports : list ContainerPort.t
}.
End Container.

Module PodSpec.
Record t : Type := mk {
  Containers : list Container.t
}.
End PodSpec.

Module PodTemplateSpec.
Record t : Type := mk {
  ObjectMeta : ObjectMeta.t;
  Spec : PodSpec.t
}.
End PodTemplateSpec.

(** ** github.com/openshift/api/image/v1 *)

Module ImageLookupPolicy.
Record t : Type := mk {
  Local : bool
}.
End ImageLookupPolicy.

Module TagReference.
Record t : Type := mk {
  Name : string;
  From : option ObjectReference.t
}.
End TagReference.

Module ImageStreamSpec.
Record t : Type := mk {
  LookupPolicy : ImageLookupPolicy.t;
  Tags : list TagReference.t
}.
(* The zero value of the struct: what a composite literal leaves unset. *)
Definition zero : t :=
  {| LookupPolicy := {| ImageLookupPolicy.Local := false |}; Tags := [] |}.
End ImageStreamSpec.

Module ImageStream.
Record t : Type := mk {
  ObjectMeta : ObjectMeta.t;
  Spec : ImageStreamSpec.t
}.
(* [s.Name] and [s.Namespace]: fields promoted from the embedded ObjectMeta. *)
Definition Name (s : t) : string := ObjectMeta.Name (ObjectMeta s).
Definition Namespace (s : t) : string := ObjectMeta.Namespace (ObjectMeta s).
Definition Labels (s : t) : gmap string string := ObjectMeta.Labels (ObjectMeta s).
End ImageStream.

(** ** github.com/openshift/api/build/v1 *)

Definition BuildSourceGit : string := "Git".
Definition ConfigChangeBuildTriggerType : string := "ConfigChange".
Definition ImageChangeBuildTriggerType : string := "ImageChange".

Module GitBuildSource.
Record t : Type := mk {
  URI : string;
  Ref : string
}.
End GitBuildSource.

Module BuildSource.
Record t : Type := mk {
  Type_ : string;
  Git : option GitBuildSource.t
}.
End BuildSource.

Module BuildOutput.
Record t : Type := mk {
  To : option ObjectReference.t
}.
End BuildOutput.

Module SourceBuildStrategy.
Record t : Type := mk {
  From : ObjectReference.t;
  Incremental : option bool
}.
End SourceBuildStrategy.

Module BuildStrategy.
Record t : Type := mk {
  SourceStrategy : option SourceBuildStrategy.t
}.
End BuildStrategy.

Module CommonSpec.
Record t : Type := mk {
  Source : BuildSource.t;
  Strategy : BuildStrategy.t;
  Output : BuildOutput.t
}.
End CommonSpec.

Module ImageChangeTrigger.
Record t : Type := mk {
  LastTriggeredImageID : string;
  From : option ObjectReference.t
}.
(* [buildv1.ImageChangeTrigger{}] *)
Definition zero : t := {| LastTriggeredImageID := ""; From := None |}.
End ImageChangeTrigger.

Module BuildTriggerPolicy.
Record t : Type := mk {
  Type_ : string;
  ImageChange : option ImageChangeTrigger.t
}.
End BuildTriggerPolicy.

Module BuildConfigSpec.
Record t : Type := mk {
  Triggers : list BuildTriggerPolicy.t;
  CommonSpec : CommonSpec.t
}.
End BuildConfigSpec.

Module BuildConfig.
Record t : Type := mk {
  ObjectMeta : ObjectMeta.t;
  Spec : BuildConfigSpec.t
}.
Definition Name (bc : t) : string := ObjectMeta.Name (ObjectMeta bc).
Definition Namespace (bc : t) : string := ObjectMeta.Namespace (ObjectMeta bc).
Definition Labels (bc : t) : gmap string string := ObjectMeta.Labels (ObjectMeta bc).
End BuildConfig.

(** ** github.com/openshift/api/apps/v1 *)

Definition DeploymentStrategyTypeRecreate : string := "Recreate".
Definition DeploymentTriggerOnConfigChange : string := "ConfigChange".
Definition DeploymentTriggerOnImageChange : string := "ImageChange".

Module DeploymentStrategy.
Record t : Type := mk {
  Type_ : string
}.
End DeploymentStrategy.

Module DeploymentTriggerImageChangeParams.
Record t : Type := mk {
  Automatic : bool;
  ContainerNames : list string;
  From : ObjectReference.t
}.
End DeploymentTriggerImageChangeParams.

Module DeploymentTriggerPolicy.
Record t : Type := mk {
  Type_ : string;
  ImageChangeParams : option DeploymentTriggerImageChangeParams.t
}.
End DeploymentTriggerPolicy.

Module DeploymentConfigSpec.
Record t : Type := mk {
  Strategy : DeploymentStrategy.t;
  Triggers : list DeploymentTriggerPolicy.t;
  Replicas : Z;
  Selector : gmap string string;
  Template : option PodTemplateSpec.t
}.
End DeploymentConfigSpec.

Module DeploymentConfig.
Record t : Type := mk {
  ObjectMeta : ObjectMeta.t;
  Spec : DeploymentConfigSpec.t
}.
Definition Name (dc : t) : string := ObjectMeta.Name (ObjectMeta dc).
Definition Namespace (dc : t) : string := ObjectMeta.Namespace (ObjectMeta dc).
Definition Labels (dc : t) : gmap string string := ObjectMeta.Labels (ObjectMeta dc).
End DeploymentConfig.

(** ** pkg/apis/devconsole/v1alpha1 *)

Module ComponentSpec.
Record t : Type := mk {
  BuildType : string;
  Codebase : string
}.
End ComponentSpec.

Module Component.
Record t : Type := mk {
  ObjectMeta : ObjectMeta.t;
  Spec : ComponentSpec.t
}.
Definition Name (cr : t) : string := ObjectMeta.Name (ObjectMeta cr).
Definition Namespace (cr : t) : string := ObjectMeta.Namespace (ObjectMeta cr).
End Component.

(** ** pkg/resource *)

(** Modelled from the spec: [resource.GetLabelsForCR] (package [pkg/resource]
    is not among the sources).  "All four derived resources carry a single
    label [app=<Component.name>]"; the controller test reads it back as
    [Labels["app"]] with [len(Labels) = 1]. *)
Definition GetLabelsForCR (cr : Component.t) : gmap string string :=
  {[ "app" := Component.Name cr ]}.

(** Indexing a Go [map[string]string]: the zero value when the key is absent. *)
Definition map_index (m : gmap string string) (k : string) : string :=
  default "" (m !! k).

(** ** pkg/controller/component/component_resources.go *)

Section Resources.

(** The package-level table [buildTypeImages] (build type -> registry image)
    is declared in a file that is not among the sources; the builders are
    embedded over an arbitrary table. *)
Variable buildTypeImages : gmap string string.

Definition newImageStreamFromDocker (cr : Component.t) : option ImageStream.t :=
  let labels := GetLabelsForCR cr in
  match buildTypeImages !! ComponentSpec.BuildType (Component.Spec cr) with
  | None => None
  | Some _ =>
    Some {| ImageStream.ObjectMeta := {|
              ObjectMeta.Name := ComponentSpec.BuildType (Component.Spec cr);
              ObjectMeta.Namespace := Component.Namespace cr;
              ObjectMeta.Labels := labels |};
            ImageStream.Spec := {|
              ImageStreamSpec.LookupPolicy := {| ImageLookupPolicy.Local := false |};
              ImageStreamSpec.Tags := [
                {| TagReference.Name := "latest";
                   TagReference.From := Some {|
                     ObjectReference.Kind := "DockerImage";
                     ObjectReference.Namespace := "";
                     ObjectReference.Name :=
                       map_index buildTypeImages
                                 (ComponentSpec.BuildType (Component.Spec cr)) |} |}
              ] |} |}
  end.

Definition newOutputImageStream (cr : Component.t) : ImageStream.t :=
  let labels := GetLabelsForCR cr in
  {| ImageStream.ObjectMeta := {|
       ObjectMeta.Name := Component.Name cr;
       ObjectMeta.Namespace := Component.Namespace cr;
       ObjectMeta.Labels := labels |};
     ImageStream.Spec := ImageStreamSpec.zero |}.

(** [builder] is a Go pointer: [None] is [nil], and the result [None] stands
    for the nil-pointer panic of [builder.Name]. *)
Definition newBuildConfig (cr : Component.t) (builder : option ImageStream.t)
  : option BuildConfig.t :=
  let labels := GetLabelsForCR cr in
  let buildSource := {|
    BuildSource.Git := Some {|
      GitBuildSource.URI := ComponentSpec.Codebase (Component.Spec cr);
      GitBuildSource.Ref := "master" |};
    BuildSource.Type_ := BuildSourceGit |} in
  let incremental := true in
  match builder with
  | None => None
  | Some builder =>
    Some {| BuildConfig.ObjectMeta := {|
              ObjectMeta.Name := Component.Name cr;
              ObjectMeta.Namespace := Component.Namespace cr;
              ObjectMeta.Labels := labels |};
            BuildConfig.Spec := {|
              BuildConfigSpec.CommonSpec := {|
                CommonSpec.Output := {|
                  BuildOutput.To := Some {|
                    ObjectReference.Kind := "ImageStreamTag";
                    ObjectReference.Namespace := "";
                    ObjectReference.Name := Component.Name cr +:+ ":latest" |} |};
                CommonSpec.Source := buildSource;
                CommonSpec.Strategy := {|
                  BuildStrategy.SourceStrategy := Some {|
                    SourceBuildStrategy.From := {|
                      ObjectReference.Kind := "ImageStreamTag";
                      ObjectReference.Name := ImageStream.Name builder +:+ ":latest";
                      ObjectReference.Namespace := ImageStream.Namespace builder |};
                    SourceBuildStrategy.Incremental := Some incremental |} |} |};
              BuildConfigSpec.Triggers := [
                {| BuildTriggerPolicy.Type_ := "ConfigChange";
                   BuildTriggerPolicy.ImageChange := None |};
                {| BuildTriggerPolicy.Type_ := "ImageChange";
                   BuildTriggerPolicy.ImageChange := Some ImageChangeTrigger.zero |}
              ] |} |}
  end.

(** [output] is a Go pointer as well; [None] as a result is the panic of
    [output.Name] on [nil]. *)
Definition newDeploymentConfig (cr : Component.t) (output : option ImageStream.t)
  : option DeploymentConfig.t :=
  let labels := GetLabelsForCR cr in
  match output with
  | None => None
  | Some output =>
    Some {| DeploymentConfig.ObjectMeta := {|
              ObjectMeta.Name := Component.Name cr;
              ObjectMeta.Namespace := Component.Namespace cr;
              ObjectMeta.Labels := labels |};
            DeploymentConfig.Spec := {|
              DeploymentConfigSpec.Strategy := {|
                DeploymentStrategy.Type_ := DeploymentStrategyTypeRecreate |};
              DeploymentConfigSpec.Replicas := 1;
              DeploymentConfigSpec.Selector := labels;
              DeploymentConfigSpec.Template := Some {|
                PodTemplateSpec.ObjectMeta := {|
                  ObjectMeta.Name := Component.Name cr;
                  ObjectMeta.Namespace := Component.Namespace cr;
                  ObjectMeta.Labels := labels |};
                PodTemplateSpec.Spec := {|
                  PodSpec.Containers := [
                    {| Container.Name := ImageStream.Name output;
                       Container.Image := ImageStream.Name output +:+ ":latest";
                       Container.Ports := [
                         {| ContainerPort.ContainerPort := 8080;
                            ContainerPort.Protocol := ProtocolTCP |} ] |}
                  ] |} |};
              DeploymentConfigSpec.Triggers := [
                {| DeploymentTriggerPolicy.Type_ := DeploymentTriggerOnConfigChange;
                   DeploymentTriggerPolicy.ImageChangeParams := None |};
                {| DeploymentTriggerPolicy.Type_ := DeploymentTriggerOnImageChange;
                   DeploymentTriggerPolicy.ImageChangeParams := Some {|
                     DeploymentTriggerImageChangeParams.Automatic := true;
                     DeploymentTriggerImageChangeParams.ContainerNames :=
                       [ ImageStream.Name output ];
                     DeploymentTriggerImageChangeParams.From := {|
                       ObjectReference.Kind := "ImageStreamTag";
                       ObjectReference.Namespace := "";
                       ObjectReference.Name :=
                         ImageStream.Name output +:+ ":latest" |} |} |}
              ] |} |}
  end.

End Resources.

(** ** The cluster store and the client *)

(** Modelled from the spec: the "shared/system namespace" in which a
    cluster-local builder image is looked up; the controller test seeds its
    cluster-local image stream in ["openshift"]. *)
Definition sharedNamespace : string := "openshift".

(** The key of a resource in the store: (namespace, name). *)
Definition keyOf (meta : ObjectMeta.t) : string * string :=
  (ObjectMeta.Namespace meta, ObjectMeta.Name meta).

(** Modelled from the spec: the store the reconciler consumes (section 6; in
    the test, the fake client of controller-runtime): typed resources
    addressed by (namespace, name). *)
Module Cluster.
Record t : Type := mk {
  components : gmap (string * string) Component.t;
  imageStreams : gmap (string * string) ImageStream.t;
  buildConfigs : gmap (string * string) BuildConfig.t;
  deploymentConfigs : gmap (string * string) DeploymentConfig.t
}.
End Cluster.

Inductive Error : Type :=
| ErrNotFound
| ErrAlreadyExists
| ErrBuilderImageNotResolved
| ErrNilPointer.

Inductive Object : Type :=
| ObjImageStream (s : ImageStream.t)
| ObjBuildConfig (bc : BuildConfig.t)
| ObjDeploymentConfig (dc : DeploymentConfig.t).

Inductive CreateOutcome : Type := Created | AlreadyExisted.

(** One [Create] call issued by a pass: the object submitted and what the
    store answered. *)
Inductive Event : Type :=
| EvCreate (o : Object) (r : CreateOutcome).

Definition outcome (e : Event) : CreateOutcome :=
  match e with EvCreate _ r => r end.

(** A pass threads the store through its calls, stops at the first error and
    records the creates it issues. *)
Module Run.
Record t (A : Type) : Type := mk {
  result : Error + A;
  cluster : Cluster.t;
  trace : list Event
}.
Arguments mk {A} _ _ _.
Arguments result {A} _.
Arguments cluster {A} _.
Arguments trace {A} _.
End Run.

Definition M (A : Type) : Type := Cluster.t -> Run.t A.

Definition ret {A} (a : A) : M A :=
  fun c => Run.mk (inr a) c [].

Definition fail {A} (e : Error) : M A :=
  fun c => Run.mk (inl e) c [].

(** The run [r], preceded by the creates [tr] issued before it. *)
Definition after {A} (tr : list Event) (r : Run.t A) : Run.t A :=
  Run.mk (Run.result r) (Run.cluster r) (tr ++ Run.trace r).

Definition bind {A B} (m : M A) (k : A -> M B) : M B :=
  fun c =>
    let r := m c in
    match Run.result r with
    | inl e => Run.mk (inl e) (Run.cluster r) (Run.trace r)
    | inr a => after (Run.trace r) (k a (Run.cluster r))
    end.

Declare Scope pass_scope.
Delimit Scope pass_scope with pass.
Notation "x <- m ;; k" := (bind m (fun x => k))
  (at level 100, m at next level, right associativity) : pass_scope.
Notation "m ;;; k" := (bind m (fun _ => k))
  (at level 100, right associativity) : pass_scope.

(** Modelled from the spec: [Get] "returns not-found as a distinguishable
    condition" (section 6). *)
Definition getComponent (key : string * string) : M Component.t :=
  fun c =>
    match Cluster.components c !! key with
    | Some cr => Run.mk (inr cr) c []
    | None => Run.mk (inl ErrNotFound) c []
    end.

Definition getImageStream (key : string * string) : M ImageStream.t :=
  fun c =>
    match Cluster.imageStreams c !! key with
    | Some s => Run.mk (inr s) c []
    | None => Run.mk (inl ErrNotFound) c []
    end.

(** Modelled from the spec: [Create] "returns already-exists as a
    distinguishable condition" (section 6); a create is "a complete,
    single-resource write" under the object's own (namespace, name). *)
Definition createImageStream (s : ImageStream.t) : M unit :=
  fun c =>
    let key := keyOf (ImageStream.ObjectMeta s) in
    match Cluster.imageStreams c !! key with
    | Some _ => Run.mk (inl ErrAlreadyExists) c [EvCreate (ObjImageStream s) AlreadyExisted]
    | None =>
      Run.mk (inr tt)
             {| Cluster.components := Cluster.components c;
                Cluster.imageStreams := <[key := s]> (Cluster.imageStreams c);
                Cluster.buildConfigs := Cluster.buildConfigs c;
                Cluster.deploymentConfigs := Cluster.deploymentConfigs c |}
             [EvCreate (ObjImageStream s) Created]
    end.

Definition createBuildConfig (bc : BuildConfig.t) : M unit :=
  fun c =>
    let key := keyOf (BuildConfig.ObjectMeta bc) in
    match Cluster.buildConfigs c !! key with
    | Some _ => Run.mk (inl ErrAlreadyExists) c [EvCreate (ObjBuildConfig bc) AlreadyExisted]
    | None =>
      Run.mk (inr tt)
             {| Cluster.components := Cluster.components c;
                Cluster.imageStreams := Cluster.imageStreams c;
                Cluster.buildConfigs := <[key := bc]> (Cluster.buildConfigs c);
                Cluster.deploymentConfigs := Cluster.deploymentConfigs c |}
             [EvCreate (ObjBuildConfig bc) Created]
    end.

Definition createDeploymentConfig (dc : DeploymentConfig.t) : M unit :=
  fun c =>
    let key := keyOf (DeploymentConfig.ObjectMeta dc) in
    match Cluster.deploymentConfigs c !! key with
    | Some _ =>
      Run.mk (inl ErrAlreadyExists) c [EvCreate (ObjDeploymentConfig dc) AlreadyExisted]
    | None =>
      Run.mk (inr tt)
             {| Cluster.components := Cluster.components c;
                Cluster.imageStreams := Cluster.imageStreams c;
                Cluster.buildConfigs := Cluster.buildConfigs c;
                Cluster.deploymentConfigs := <[key := dc]> (Cluster.deploymentConfigs c) |}
             [EvCreate (ObjDeploymentConfig dc) Created]
    end.

(** Modelled from the spec: "Not-found on ... fetch: benign, not an error"
    (section 7): a lookup whose not-found answer is a value; any other error
    is passed on. *)
Definition orNotFound {A} (m : M A) : M (option A) :=
  fun c =>
    let r := m c in
    match Run.result r with
    | inr a => Run.mk (inr (Some a)) (Run.cluster r) (Run.trace r)
    | inl ErrNotFound => Run.mk (inr None) (Run.cluster r) (Run.trace r)
    | inl e => Run.mk (inl e) (Run.cluster r) (Run.trace r)
    end.

(** Modelled from the spec: "Already-exists on Create: not an error; treated
    as confirmation the desired resource is present" (section 7). *)
Definition ensure (m : M unit) : M unit :=
  fun c =>
    let r := m c in
    match Run.result r with
    | inl ErrAlreadyExists => Run.mk (inr tt) (Run.cluster r) (Run.trace r)
    | _ => r
    end.

(** A template builder applied to a nil reference panics. *)
Definition nonNil {A} (o : option A) : M A :=
  match o with
  | Some a => ret a
  | None => fail ErrNilPointer
  end.

Section Reconciler.

Variable buildTypeImages : gmap string string.

Local Open Scope pass_scope.

(** Modelled from the spec: step 2 of the reconciliation pass (section 4.2),
    "Resolve builder image": the cluster-local image stream named after the
    build type in the shared namespace if there is one; otherwise the declared
    one, created idempotently; [None] when neither resolves. *)
Definition resolveBuilderImage (instance : Component.t) : M (option ImageStream.t) :=
  found <- orNotFound (getImageStream
             (sharedNamespace, ComponentSpec.BuildType (Component.Spec instance))) ;;
  match found with
  | Some builder => ret (Some builder)
  | None =>
    match newImageStreamFromDocker buildTypeImages instance with
    | Some builder => ensure (createImageStream builder) ;;; ret (Some builder)
    | None => ret None
    end
  end.

(** Modelled from the spec: the reconciliation pass [Reconcile] (the
    controller file is not among the sources), steps 1 to 6 of section 4.2 in
    their order.  The output image is ensured "unconditionally" (step 3)
    before the fatal exit of an unresolved builder image is surfaced: "the
    output image is still created, but no build pipeline and no deployment
    exist afterward" (section 8), which is what the controller test "CR
    without buildtype" observes. *)
Definition Reconcile (request : string * string) : M unit :=
  fetched <- orNotFound (getComponent request) ;;
  match fetched with
  | None => ret tt
  | Some instance =>
    builderRef <- resolveBuilderImage instance ;;
    let output := newOutputImageStream instance in
    ensure (createImageStream output) ;;;
    match builderRef with
    | None => fail ErrBuilderImageNotResolved
    | Some _ =>
      bc <- nonNil (newBuildConfig instance builderRef) ;;
      ensure (createBuildConfig bc) ;;;
      dc <- nonNil (newDeploymentConfig instance (Some output)) ;;
      ensure (createDeploymentConfig dc)
    end
  end.

End Reconciler.

(** ** The fixtures of the controller test *)

(** Modelled from the spec: the one entry of [buildTypeImages] that the
    design document (section 6) and the controller test give. *)
Definition testBuildTypeImages : gmap string string :=
  {[ "nodejs" := "nodeshift/centos7-s2i-nodejs:10.x" ]}.

Definition testComponent (buildType codebase : string) : Component.t :=
  {| Component.ObjectMeta := {|
       ObjectMeta.Name := "MyComp";
       ObjectMeta.Namespace := "test-project";
       ObjectMeta.Labels := ∅ |};
     Component.Spec := {|
       ComponentSpec.BuildType := buildType;
       ComponentSpec.Codebase := codebase |} |}.

Definition cp : Component.t := testComponent "nodejs" "https://somegit.con/myrepo".

Definition isNodejs : ImageStream.t :=
  {| ImageStream.ObjectMeta := {|
       ObjectMeta.Name := "nodejs";
       ObjectMeta.Namespace := "openshift";
       ObjectMeta.Labels := ∅ |};
     ImageStream.Spec := ImageStreamSpec.zero |}.

(** [fake.NewFakeClient(objs...)] for a component and some image streams. *)
Definition fakeClient (cr : Component.t) (streams : list ImageStream.t) : Cluster.t :=
  {| Cluster.components := {[ keyOf (Component.ObjectMeta cr) := cr ]};
     Cluster.imageStreams :=
       list_to_map ((fun s => (keyOf (ImageStream.ObjectMeta s), s)) <$> streams);
     Cluster.buildConfigs := ∅;
     Cluster.deploymentConfigs := ∅ |}.

(** What the controller test asserts of the labels of each resource it reads
    back: one label, and [app] is the component's name. *)
Definition carriesAppLabel (cr : Component.t) (labels : gmap string string) : Prop :=
  size labels = 1%nat /\ labels !! "app" = Some (Component.Name cr).

(** ** Vocabulary of the reconciliation properties *)

Definition componentKey (cr : Component.t) : string * string :=
  keyOf (Component.ObjectMeta cr).

(** The store holds the component under its own (namespace, name). *)
Definition stored (c : Cluster.t) (cr : Component.t) : Prop :=
  Cluster.components c !! componentKey cr = Some cr.

(** The key under which the declared builder image of a component lives, and
    the key of a cluster-local builder image for it. *)
Definition declaredBuilderKey (cr : Component.t) : string * string :=
  (Component.Namespace cr, ComponentSpec.BuildType (Component.Spec cr)).

Definition localBuilderKey (cr : Component.t) : string * string :=
  (sharedNamespace, ComponentSpec.BuildType (Component.Spec cr)).

(** A map after an idempotent create of [v] under [k]. *)
Definition putNew {A} (k : string * string) (v : A) (m : gmap (string * string) A)
  : gmap (string * string) A :=
  match m !! k with
  | Some _ => m
  | None => <[k := v]> m
  end.

(** What the store answers to a create, given what it holds under the key. *)
Definition answer {A} (held : option A) : CreateOutcome :=
  match held with
  | Some _ => AlreadyExisted
  | None => Created
  end.

Definition withImageStream (s : ImageStream.t) (c : Cluster.t) : Cluster.t :=
  {| Cluster.components := Cluster.components c;
     Cluster.imageStreams :=
       putNew (keyOf (ImageStream.ObjectMeta s)) s (Cluster.imageStreams c);
     Cluster.buildConfigs := Cluster.buildConfigs c;
     Cluster.deploymentConfigs := Cluster.deploymentConfigs c |}.

Definition withBuildConfig (bc : BuildConfig.t) (c : Cluster.t) : Cluster.t :=
  {| Cluster.components := Cluster.components c;
     Cluster.imageStreams := Cluster.imageStreams c;
     Cluster.buildConfigs :=
       putNew (keyOf (BuildConfig.ObjectMeta bc)) bc (Cluster.buildConfigs c);
     Cluster.deploymentConfigs := Cluster.deploymentConfigs c |}.

Definition withDeploymentConfig (dc : DeploymentConfig.t) (c : Cluster.t) : Cluster.t :=
  {| Cluster.components := Cluster.components c;
     Cluster.imageStreams := Cluster.imageStreams c;
     Cluster.buildConfigs := Cluster.buildConfigs c;
     Cluster.deploymentConfigs :=
       putNew (keyOf (DeploymentConfig.ObjectMeta dc)) dc (Cluster.deploymentConfigs c) |}.

(** The source image of a build configuration's source strategy. *)
Definition builderImageOf (bc : BuildConfig.t) : option ObjectReference.t :=
  SourceBuildStrategy.From <$>
    BuildStrategy.SourceStrategy
      (CommonSpec.Strategy (BuildConfigSpec.CommonSpec (BuildConfig.Spec bc))).

(** The git URI of a build configuration's source. *)
Definition gitURIOf (bc : BuildConfig.t) : option string :=
  GitBuildSource.URI <$>
    BuildSource.Git (CommonSpec.Source (BuildConfigSpec.CommonSpec (BuildConfig.Spec bc))).

(** The image stream tag a build configuration pushes its result to. *)
Definition outputTargetOf (bc : BuildConfig.t) : option ObjectReference.t :=
  BuildOutput.To (CommonSpec.Output (BuildConfigSpec.CommonSpec (BuildConfig.Spec bc))).

(** The parameters of the image-change triggers of a deployment configuration,
    and the image stream tags they watch. *)
Definition imageChangeParamsOf (dc : DeploymentConfig.t)
  : list DeploymentTriggerImageChangeParams.t :=
  omap DeploymentTriggerPolicy.ImageChangeParams
       (DeploymentConfigSpec.Triggers (DeploymentConfig.Spec dc)).

Definition imageChangeSourcesOf (dc : DeploymentConfig.t) : list ObjectReference.t :=
  DeploymentTriggerImageChangeParams.From <$> imageChangeParamsOf dc.

(** The containers of the pod template of a deployment configuration. *)
Definition containersOf (dc : DeploymentConfig.t) : list Container.t :=
  match DeploymentConfigSpec.Template (DeploymentConfig.Spec dc) with
  | Some tmpl => PodSpec.Containers (PodTemplateSpec.Spec tmpl)
  | None => []
  end.

(** The store after the descriptor [cr] has been written to it (by its
    owner, between two passes). *)
Definition withComponent (cr : Component.t) (c : Cluster.t) : Cluster.t :=
  {| Cluster.components := <[ componentKey cr := cr ]> (Cluster.components c);
     Cluster.imageStreams := Cluster.imageStreams c;
     Cluster.buildConfigs := Cluster.buildConfigs c;
     Cluster.deploymentConfigs := Cluster.deploymentConfigs c |}.

(** A component named after its build type. *)
Definition namesakeComponent (codebase : string) : Component.t :=
  {| Component.ObjectMeta := {|
       ObjectMeta.Name := "nodejs";
       ObjectMeta.Namespace := "test-project";
       ObjectMeta.Labels := ∅ |};
     Component.Spec := {|
       ComponentSpec.BuildType := "nodejs";
       ComponentSpec.Codebase := codebase |} |}.

(** The store holds the four resources derived from the component: the
    declared builder image, the output image stream, and the build and
    deployment configurations built from them, each under its own key. *)
Definition derivedResourcesStored
    (buildTypeImages : gmap string string) (cr : Component.t) (c : Cluster.t) : Prop :=
  exists (b : ImageStream.t) (bc : BuildConfig.t) (dc : DeploymentConfig.t),
    newImageStreamFromDocker buildTypeImages cr = Some b /\
    newBuildConfig cr (Some b) = Some bc /\
    newDeploymentConfig cr (Some (newOutputImageStream cr)) = Some dc /\
    Cluster.imageStreams c !! declaredBuilderKey cr = Some b /\
    Cluster.imageStreams c !! componentKey cr = Some (newOutputImageStream cr) /\
    Cluster.buildConfigs c !! componentKey cr = Some bc /\
    Cluster.deploymentConfigs c !! componentKey cr = Some dc.

(** * Properties of the template builders *)

Lemma GetLabelsForCR_app (cr : Component.t) : carriesAppLabel cr (GetLabelsForCR cr).
Proof.
  split.
  - apply map_size_singleton.
  - apply lookup_singleton_eq.
Qed.

Section ResourcesSpec.

Variable buildTypeImages : gmap string string.

Lemma newImageStreamFromDocker_unmapped (cr : Component.t) :
  buildTypeImages !! ComponentSpec.BuildType (Component.Spec cr) = None ->
  newImageStreamFromDocker buildTypeImages cr = None.
Proof. intros Hnone. unfold newImageStreamFromDocker. now rewrite Hnone. Qed.

Lemma newImageStreamFromDocker_mapped (cr : Component.t) (image : string) :
  buildTypeImages !! ComponentSpec.BuildType (Component.Spec cr) = Some image ->
  newImageStreamFromDocker buildTypeImages cr =
  Some {| ImageStream.ObjectMeta := {|
            ObjectMeta.Name := ComponentSpec.BuildType (Component.Spec cr);
            ObjectMeta.Namespace := Component.Namespace cr;
            ObjectMeta.Labels := GetLabelsForCR cr |};
          ImageStream.Spec := {|
            ImageStreamSpec.LookupPolicy := {| ImageLookupPolicy.Local := false |};
            ImageStreamSpec.Tags := [
              {| TagReference.Name := "latest";
                 TagReference.From := Some {|
                   ObjectReference.Kind := "DockerImage";
                   ObjectReference.Namespace := "";
                   ObjectReference.Name := image |} |} ] |} |}.
Proof.
  intros Hsome. unfold newImageStreamFromDocker, map_index.
  now rewrite Hsome.
Qed.

(** C1. [newImageStreamFromDocker] returns nil when the build type is empty or
    is not a key of the table (the table having no entry for the empty
    string); otherwise it returns an image stream named after the build type,
    in the component's namespace, whose only tag is ["latest"], taken from the
    registry image the table gives for the build type. *)
Theorem newImageStreamFromDocker_spec (cr : Component.t) :
  buildTypeImages !! "" = None ->
  let buildType := ComponentSpec.BuildType (Component.Spec cr) in
  (buildType = "" \/ buildTypeImages !! buildType = None ->
   newImageStreamFromDocker buildTypeImages cr = None) /\
  (forall image : string,
     buildType <> "" ->
     buildTypeImages !! buildType = Some image ->
     exists s : ImageStream.t,
       newImageStreamFromDocker buildTypeImages cr = Some s /\
       ImageStream.Name s = buildType /\
       ImageStream.Namespace s = Component.Namespace cr /\
       ImageStreamSpec.Tags (ImageStream.Spec s) =
       [ {| TagReference.Name := "latest";
            TagReference.From := Some {|
              ObjectReference.Kind := "DockerImage";
              ObjectReference.Namespace := "";
              ObjectReference.Name := image |} |} ]).
Proof.
  intros Hempty buildType. split.
  - intros [Heq | Hnone].
    + apply newImageStreamFromDocker_unmapped.
      fold buildType. rewrite Heq. exact Hempty.
    + now apply newImageStreamFromDocker_unmapped.
  - intros image _ Hsome.
    eexists. split; [ exact (newImageStreamFromDocker_mapped cr image Hsome) | ].
    repeat split.
Qed.

(** C5. The (namespace, name) of each derived resource is given by the
    component's namespace and name and, for the declared builder image, its
    build type: the builder image (when there is one) is keyed by (namespace,
    build type); the output image, the build configuration and the deployment
    configuration are keyed by (namespace, name). *)
Theorem derived_resource_keys
    (cr : Component.t) (builder output : ImageStream.t) :
  let ns := Component.Namespace cr in
  (keyOf ∘ ImageStream.ObjectMeta) <$> newImageStreamFromDocker buildTypeImages cr =
    (fun _ => (ns, ComponentSpec.BuildType (Component.Spec cr)))
      <$> (buildTypeImages !! ComponentSpec.BuildType (Component.Spec cr)) /\
  keyOf (ImageStream.ObjectMeta (newOutputImageStream cr)) = (ns, Component.Name cr) /\
  (keyOf ∘ BuildConfig.ObjectMeta) <$> newBuildConfig cr (Some builder) =
    Some (ns, Component.Name cr) /\
  (keyOf ∘ DeploymentConfig.ObjectMeta) <$> newDeploymentConfig cr (Some output) =
    Some (ns, Component.Name cr).
Proof.
  intros ns. repeat split.
  unfold newImageStreamFromDocker.
  now destruct (buildTypeImages !! _).
Qed.

(** C9. Each resource a template builder produces carries exactly one label,
    [app] = the component's name, and the deployment configuration selects
    its pods (and labels its pod template) with that same label. *)
Theorem derived_resource_labels
    (cr : Component.t) (builder output : ImageStream.t) :
  match newImageStreamFromDocker buildTypeImages cr with
  | Some s => carriesAppLabel cr (ImageStream.Labels s)
  | None => True
  end /\
  carriesAppLabel cr (ImageStream.Labels (newOutputImageStream cr)) /\
  (exists bc, newBuildConfig cr (Some builder) = Some bc /\
              carriesAppLabel cr (BuildConfig.Labels bc)) /\
  (exists dc tmpl,
     newDeploymentConfig cr (Some output) = Some dc /\
     carriesAppLabel cr (DeploymentConfig.Labels dc) /\
     DeploymentConfigSpec.Selector (DeploymentConfig.Spec dc) = DeploymentConfig.Labels dc /\
     DeploymentConfigSpec.Template (DeploymentConfig.Spec dc) = Some tmpl /\
     ObjectMeta.Labels (PodTemplateSpec.ObjectMeta tmpl) = DeploymentConfig.Labels dc).
Proof.
  pose proof (GetLabelsForCR_app cr) as Hl.
  split; [ | split; [ | split ] ].
  - unfold newImageStreamFromDocker.
    destruct (buildTypeImages !! _); [ exact Hl | exact I ].
  - exact Hl.
  - eexists. split; [ reflexivity | exact Hl ].
  - do 2 eexists. split; [ reflexivity | ]. repeat split; apply Hl.
Qed.

(** C10. For a build type that the table maps, the declared builder image has
    its lookup policy's [Local] set to [false]. *)
Theorem newImageStreamFromDocker_lookup_policy (cr : Component.t) (image : string) :
  buildTypeImages !! ComponentSpec.BuildType (Component.Spec cr) = Some image ->
  exists s : ImageStream.t,
    newImageStreamFromDocker buildTypeImages cr = Some s /\
    ImageLookupPolicy.Local (ImageStreamSpec.LookupPolicy (ImageStream.Spec s)) = false.
Proof.
  intros Hsome. eexists.
  split; [ exact (newImageStreamFromDocker_mapped cr image Hsome) | reflexivity ].
Qed.

End ResourcesSpec.

(** C6. For a component and a non-nil builder reference, [newBuildConfig]
    returns a build configuration (it does not panic) whose git source is the
    component's codebase at ref ["master"], whose output is the image stream
    tag [<name>:latest], whose source strategy builds from the image stream
    tag [<builder name>:latest] in the builder's namespace with the
    incremental flag set, and whose triggers are exactly two: config change,
    then image change. *)
Theorem newBuildConfig_spec (cr : Component.t) (builder : ImageStream.t) :
  exists bc : BuildConfig.t,
    newBuildConfig cr (Some builder) = Some bc /\
    let spec := BuildConfigSpec.CommonSpec (BuildConfig.Spec bc) in
    BuildSource.Type_ (CommonSpec.Source spec) = BuildSourceGit /\
    BuildSource.Git (CommonSpec.Source spec) =
      Some {| GitBuildSource.URI := ComponentSpec.Codebase (Component.Spec cr);
              GitBuildSource.Ref := "master" |} /\
    BuildOutput.To (CommonSpec.Output spec) =
      Some {| ObjectReference.Kind := "ImageStreamTag";
              ObjectReference.Namespace := "";
              ObjectReference.Name := Component.Name cr +:+ ":latest" |} /\
    BuildStrategy.SourceStrategy (CommonSpec.Strategy spec) =
      Some {| SourceBuildStrategy.From := {|
                ObjectReference.Kind := "ImageStreamTag";
                ObjectReference.Namespace := ImageStream.Namespace builder;
                ObjectReference.Name := ImageStream.Name builder +:+ ":latest" |};
              SourceBuildStrategy.Incremental := Some true |} /\
    length (BuildConfigSpec.Triggers (BuildConfig.Spec bc)) = 2%nat /\
    BuildTriggerPolicy.Type_ <$> BuildConfigSpec.Triggers (BuildConfig.Spec bc) =
      [ ConfigChangeBuildTriggerType; ImageChangeBuildTriggerType ].
Proof.
  eexists. split; [ reflexivity | ]. cbn. repeat split.
Qed.

(** C7 (as amended). For a component and a non-nil output image reference,
    [newDeploymentConfig] returns a deployment configuration with one
    replica, the recreate strategy, selector and pod labels [app] = the
    component's name, exactly one container, named [<output name>] and running
    image [<output name>:latest], exposing exactly TCP port 8080, and exactly
    two triggers: config change, then an automatic image change bound to the
    image stream tag [<output name>:latest]. *)
Theorem newDeploymentConfig_spec (cr : Component.t) (output : ImageStream.t) :
  exists (dc : DeploymentConfig.t) (tmpl : PodTemplateSpec.t),
    newDeploymentConfig cr (Some output) = Some dc /\
    let spec := DeploymentConfig.Spec dc in
    DeploymentConfigSpec.Replicas spec = 1 /\
    DeploymentStrategy.Type_ (DeploymentConfigSpec.Strategy spec) =
      DeploymentStrategyTypeRecreate /\
    DeploymentConfigSpec.Selector spec = {[ "app" := Component.Name cr ]} /\
    DeploymentConfigSpec.Template spec = Some tmpl /\
    ObjectMeta.Labels (PodTemplateSpec.ObjectMeta tmpl) = {[ "app" := Component.Name cr ]} /\
    PodSpec.Containers (PodTemplateSpec.Spec tmpl) =
      [ {| Container.Name := ImageStream.Name output;
           Container.Image := ImageStream.Name output +:+ ":latest";
           Container.Ports := [ {| ContainerPort.ContainerPort := 8080;
                                   ContainerPort.Protocol := ProtocolTCP |} ] |} ] /\
    DeploymentConfigSpec.Triggers spec =
      [ {| DeploymentTriggerPolicy.Type_ := DeploymentTriggerOnConfigChange;
           DeploymentTriggerPolicy.ImageChangeParams := None |};
        {| DeploymentTriggerPolicy.Type_ := DeploymentTriggerOnImageChange;
           DeploymentTriggerPolicy.ImageChangeParams := Some {|
             DeploymentTriggerImageChangeParams.Automatic := true;
             DeploymentTriggerImageChangeParams.ContainerNames :=
               [ ImageStream.Name output ];
             DeploymentTriggerImageChangeParams.From := {|
               ObjectReference.Kind := "ImageStreamTag";
               ObjectReference.Namespace := "";
               ObjectReference.Name := ImageStream.Name output +:+ ":latest" |} |} |} ].
Proof.
  do 2 eexists. split; [ reflexivity | ]. cbn. repeat split.
Qed.

(** C7 as stated fails: for the test's component, the one container of the
    deployment configuration is not named [MyComp:latest] (only its image
    is); its name is the output image's name, [MyComp]. *)
Lemma newDeploymentConfig_container_not_named_after_tag :
  ~ exists (dc : DeploymentConfig.t) (tmpl : PodTemplateSpec.t) (ct : Container.t),
      newDeploymentConfig cp (Some (newOutputImageStream cp)) = Some dc /\
      DeploymentConfigSpec.Template (DeploymentConfig.Spec dc) = Some tmpl /\
      PodSpec.Containers (PodTemplateSpec.Spec tmpl) = [ ct ] /\
      Container.Name ct = ImageStream.Name (newOutputImageStream cp) +:+ ":latest" /\
      Container.Image ct = ImageStream.Name (newOutputImageStream cp) +:+ ":latest".
Proof.
  intros (dc & tmpl & ct & Hdc & Htmpl & Hct & Hname & _).
  cbv [newDeploymentConfig] in Hdc.
  injection Hdc as <-. cbn in Htmpl.
  injection Htmpl as <-. cbn in Hct.
  injection Hct as <-. cbn in Hname.
  discriminate Hname.
Qed.

(** * Properties of the reconciliation pass *)

Section PutNew.

Context {A : Type}.
Implicit Types (k : string * string) (v : A) (m : gmap (string * string) A).

Lemma putNew_held k v m : is_Some (m !! k) -> putNew k v m = m.
Proof. intros [x Hx]. unfold putNew. now rewrite Hx. Qed.

Lemma lookup_putNew_is_Some k v m : is_Some (putNew k v m !! k).
Proof.
  unfold putNew. destruct (m !! k) as [x|] eqn:Hk.
  - rewrite Hk. eauto.
  - rewrite lookup_insert_eq. eauto.
Qed.

Lemma lookup_putNew_fresh k v m : m !! k = None -> putNew k v m !! k = Some v.
Proof. intros Hk. unfold putNew. rewrite Hk. apply lookup_insert_eq. Qed.

Lemma lookup_putNew_ne k k' v m : k <> k' -> putNew k v m !! k' = m !! k'.
Proof.
  intros Hne. unfold putNew. destruct (m !! k); [ reflexivity | ].
  now apply lookup_insert_ne.
Qed.

Lemma lookup_putNew_Some k k' v m (x : A) :
  m !! k' = Some x -> putNew k v m !! k' = Some x.
Proof.
  intros Hk'. unfold putNew. destruct (m !! k) eqn:Hk; [ exact Hk' | ].
  rewrite lookup_insert_ne; [ exact Hk' | ].
  intros ->. rewrite Hk in Hk'. discriminate Hk'.
Qed.

Lemma lookup_putNew_mono k k' v m : is_Some (m !! k') -> is_Some (putNew k v m !! k').
Proof.
  intros Hk'. unfold putNew. destruct (m !! k) eqn:Hk; [ exact Hk' | ].
  destruct (decide (k = k')) as [-> | Hne].
  - rewrite lookup_insert_eq. eauto.
  - now rewrite lookup_insert_ne.
Qed.

End PutNew.

Lemma withImageStream_held (s : ImageStream.t) (c : Cluster.t) :
  is_Some (Cluster.imageStreams c !! keyOf (ImageStream.ObjectMeta s)) ->
  withImageStream s c = c.
Proof.
  intros Hk. unfold withImageStream. rewrite putNew_held by exact Hk.
  now destruct c.
Qed.

Lemma withBuildConfig_held (bc : BuildConfig.t) (c : Cluster.t) :
  is_Some (Cluster.buildConfigs c !! keyOf (BuildConfig.ObjectMeta bc)) ->
  withBuildConfig bc c = c.
Proof.
  intros Hk. unfold withBuildConfig. rewrite putNew_held by exact Hk.
  now destruct c.
Qed.

Lemma withDeploymentConfig_held (dc : DeploymentConfig.t) (c : Cluster.t) :
  is_Some (Cluster.deploymentConfigs c !! keyOf (DeploymentConfig.ObjectMeta dc)) ->
  withDeploymentConfig dc c = c.
Proof.
  intros Hk. unfold withDeploymentConfig. rewrite putNew_held by exact Hk.
  now destruct c.
Qed.

(** The steps of a pass, one equation each. *)

Lemma bind_inr {A B} (m : M A) (k : A -> M B) (c c' : Cluster.t) (a : A) (tr : list Event) :
  m c = Run.mk (inr a) c' tr ->
  bind m k c = after tr (k a c').
Proof. intros Hm. unfold bind. now rewrite Hm. Qed.

Lemma fetch_stored (c : Cluster.t) (cr : Component.t) :
  stored c cr ->
  orNotFound (getComponent (componentKey cr)) c = Run.mk (inr (Some cr)) c [].
Proof.
  intros Hs. unfold stored in Hs.
  unfold orNotFound, getComponent. now rewrite Hs.
Qed.

Lemma ensure_createImageStream (s : ImageStream.t) (c : Cluster.t) :
  ensure (createImageStream s) c =
  Run.mk (inr tt) (withImageStream s c)
         [EvCreate (ObjImageStream s)
                   (answer (Cluster.imageStreams c !! keyOf (ImageStream.ObjectMeta s)))].
Proof.
  unfold ensure, createImageStream, withImageStream, putNew.
  destruct (Cluster.imageStreams c !! _); cbn; [ now destruct c | reflexivity ].
Qed.

Lemma ensure_createBuildConfig (bc : BuildConfig.t) (c : Cluster.t) :
  ensure (createBuildConfig bc) c =
  Run.mk (inr tt) (withBuildConfig bc c)
         [EvCreate (ObjBuildConfig bc)
                   (answer (Cluster.buildConfigs c !! keyOf (BuildConfig.ObjectMeta bc)))].
Proof.
  unfold ensure, createBuildConfig, withBuildConfig, putNew.
  destruct (Cluster.buildConfigs c !! _); cbn; [ now destruct c | reflexivity ].
Qed.

Lemma ensure_createDeploymentConfig (dc : DeploymentConfig.t) (c : Cluster.t) :
  ensure (createDeploymentConfig dc) c =
  Run.mk (inr tt) (withDeploymentConfig dc c)
         [EvCreate (ObjDeploymentConfig dc)
                   (answer (Cluster.deploymentConfigs c
                              !! keyOf (DeploymentConfig.ObjectMeta dc)))].
Proof.
  unfold ensure, createDeploymentConfig, withDeploymentConfig, putNew.
  destruct (Cluster.deploymentConfigs c !! _); cbn; [ now destruct c | reflexivity ].
Qed.

Lemma key_newBuildConfig (cr : Component.t) (b : option ImageStream.t) (bc : BuildConfig.t) :
  newBuildConfig cr b = Some bc ->
  keyOf (BuildConfig.ObjectMeta bc) = componentKey cr.
Proof.
  unfold newBuildConfig. destruct b; [ | discriminate ].
  now intros [= <-].
Qed.

Lemma key_newDeploymentConfig
    (cr : Component.t) (o : option ImageStream.t) (dc : DeploymentConfig.t) :
  newDeploymentConfig cr o = Some dc ->
  keyOf (DeploymentConfig.ObjectMeta dc) = componentKey cr.
Proof.
  unfold newDeploymentConfig. destruct o; [ | discriminate ].
  now intros [= <-].
Qed.

Lemma key_newImageStreamFromDocker
    (tbl : gmap string string) (cr : Component.t) (b : ImageStream.t) :
  newImageStreamFromDocker tbl cr = Some b ->
  keyOf (ImageStream.ObjectMeta b) = declaredBuilderKey cr.
Proof.
  unfold newImageStreamFromDocker. destruct (tbl !! _); [ | discriminate ].
  now intros [= <-].
Qed.

Section ReconcilerSpec.

Variable buildTypeImages : gmap string string.

(** Step 2, case by case. *)

Lemma resolve_local (c : Cluster.t) (cr : Component.t) (b : ImageStream.t) :
  Cluster.imageStreams c !! localBuilderKey cr = Some b ->
  resolveBuilderImage buildTypeImages cr c = Run.mk (inr (Some b)) c [].
Proof.
  intros Hl. unfold resolveBuilderImage.
  erewrite bind_inr; cycle 1.
  { unfold orNotFound, getImageStream. fold (localBuilderKey cr). now rewrite Hl. }
  reflexivity.
Qed.

Lemma resolve_declared (c : Cluster.t) (cr : Component.t) (b : ImageStream.t) :
  Cluster.imageStreams c !! localBuilderKey cr = None ->
  newImageStreamFromDocker buildTypeImages cr = Some b ->
  resolveBuilderImage buildTypeImages cr c =
  Run.mk (inr (Some b)) (withImageStream b c)
         [EvCreate (ObjImageStream b)
                   (answer (Cluster.imageStreams c !! keyOf (ImageStream.ObjectMeta b)))].
Proof.
  intros Hl Hb. unfold resolveBuilderImage.
  erewrite bind_inr; cycle 1.
  { unfold orNotFound, getImageStream. fold (localBuilderKey cr). now rewrite Hl. }
  rewrite Hb.
  erewrite bind_inr by apply ensure_createImageStream.
  reflexivity.
Qed.

Lemma resolve_none (c : Cluster.t) (cr : Component.t) :
  Cluster.imageStreams c !! localBuilderKey cr = None ->
  newImageStreamFromDocker buildTypeImages cr = None ->
  resolveBuilderImage buildTypeImages cr c = Run.mk (inr None) c [].
Proof.
  intros Hl Hb. unfold resolveBuilderImage.
  erewrite bind_inr; cycle 1.
  { unfold orNotFound, getImageStream. fold (localBuilderKey cr). now rewrite Hl. }
  now rewrite Hb.
Qed.

(** The whole pass, once step 2 is known. *)

Lemma Reconcile_unresolved (c : Cluster.t) (cr : Component.t) :
  stored c cr ->
  resolveBuilderImage buildTypeImages cr c = Run.mk (inr None) c [] ->
  Reconcile buildTypeImages (componentKey cr) c =
  Run.mk (inl ErrBuilderImageNotResolved)
         (withImageStream (newOutputImageStream cr) c)
         [EvCreate (ObjImageStream (newOutputImageStream cr))
                   (answer (Cluster.imageStreams c !! componentKey cr))].
Proof.
  intros Hs Hr. unfold Reconcile.
  erewrite bind_inr by (apply fetch_stored; exact Hs). cbv beta iota.
  erewrite bind_inr by exact Hr. cbv beta iota zeta.
  erewrite bind_inr by apply ensure_createImageStream.
  reflexivity.
Qed.

Lemma Reconcile_resolved
    (c c1 : Cluster.t) (cr : Component.t) (b : ImageStream.t) (tr : list Event)
    (bc : BuildConfig.t) (dc : DeploymentConfig.t) :
  stored c cr ->
  resolveBuilderImage buildTypeImages cr c = Run.mk (inr (Some b)) c1 tr ->
  newBuildConfig cr (Some b) = Some bc ->
  newDeploymentConfig cr (Some (newOutputImageStream cr)) = Some dc ->
  let out := newOutputImageStream cr in
  Reconcile buildTypeImages (componentKey cr) c =
  Run.mk (inr tt)
         (withDeploymentConfig dc (withBuildConfig bc (withImageStream out c1)))
         (tr ++
          [ EvCreate (ObjImageStream out) (answer (Cluster.imageStreams c1 !! componentKey cr));
            EvCreate (ObjBuildConfig bc) (answer (Cluster.buildConfigs c1 !! componentKey cr));
            EvCreate (ObjDeploymentConfig dc)
                     (answer (Cluster.deploymentConfigs c1 !! componentKey cr)) ]).
Proof.
  intros Hs Hr Hbc Hdc out. subst out. unfold Reconcile.
  erewrite bind_inr by (apply fetch_stored; exact Hs). cbv beta iota.
  erewrite bind_inr by exact Hr. cbv beta iota zeta.
  erewrite bind_inr by apply ensure_createImageStream. cbv beta iota.
  rewrite Hbc. erewrite bind_inr by reflexivity. cbv beta iota.
  erewrite bind_inr by apply ensure_createBuildConfig. cbv beta iota.
  rewrite Hdc. erewrite bind_inr by reflexivity. cbv beta iota.
  rewrite ensure_createDeploymentConfig.
  rewrite (key_newBuildConfig _ _ _ Hbc), (key_newDeploymentConfig _ _ _ Hdc).
  reflexivity.
Qed.

Lemma resolve_mapped (c : Cluster.t) (cr : Component.t) (image : string) :
  buildTypeImages !! ComponentSpec.BuildType (Component.Spec cr) = Some image ->
  exists (b : ImageStream.t) (c1 : Cluster.t) (tr : list Event),
    resolveBuilderImage buildTypeImages cr c = Run.mk (inr (Some b)) c1 tr /\
    Cluster.components c1 = Cluster.components c /\
    Cluster.buildConfigs c1 = Cluster.buildConfigs c /\
    Cluster.deploymentConfigs c1 = Cluster.deploymentConfigs c /\
    (forall k, is_Some (Cluster.imageStreams c !! k) ->
               is_Some (Cluster.imageStreams c1 !! k)) /\
    (is_Some (Cluster.imageStreams c !! localBuilderKey cr) \/
     is_Some (Cluster.imageStreams c1 !! declaredBuilderKey cr)) /\
    ((is_Some (Cluster.imageStreams c !! localBuilderKey cr) \/
      is_Some (Cluster.imageStreams c !! declaredBuilderKey cr)) ->
     c1 = c /\ Forall (fun e => outcome e = AlreadyExisted) tr).
Proof.
  intros Hmap.
  destruct (Cluster.imageStreams c !! localBuilderKey cr) as [b|] eqn:Hl.
  - exists b, c, []. split; [ now apply resolve_local | ].
    repeat split; eauto.
  - pose proof (newImageStreamFromDocker_mapped _ _ _ Hmap) as Hb.
    pose proof (key_newImageStreamFromDocker _ _ _ Hb) as Hk.
    eexists _, _, _. split; [ apply resolve_declared; [ exact Hl | exact Hb ] | ].
    rewrite Hk. cbn [withImageStream Cluster.components Cluster.imageStreams
                     Cluster.buildConfigs Cluster.deploymentConfigs].
    rewrite Hk.
    split; [ reflexivity | ]. split; [ reflexivity | ]. split; [ reflexivity | ].
    split; [ intros k; apply lookup_putNew_mono | ].
    split; [ right; apply lookup_putNew_is_Some | ].
    intros [[x Hx] | Hd]; [ discriminate | ].
    split.
    + apply withImageStream_held. now rewrite Hk.
    + destruct Hd as [x ->]. repeat constructor.
Qed.

(** Step 1: a request for a component that is not in the store is a no-op. *)
Lemma Reconcile_deleted (c : Cluster.t) (request : string * string) :
  Cluster.components c !! request = None ->
  Reconcile buildTypeImages request c = Run.mk (inr tt) c [].
Proof.
  intros Hnone. unfold Reconcile.
  erewrite bind_inr; cycle 1.
  { unfold orNotFound, getComponent. now rewrite Hnone. }
  reflexivity.
Qed.

(** C2 (as amended). A component with an empty build type (the table having
    no entry for the empty string, and no cluster-local image stream matching): the pass
    returns an error; afterwards an image stream named after the component is
    in the store, the output image stream unless one was there before; the
    pass creates neither a build configuration
    nor a deployment configuration, so that none named after the component
    exists afterwards unless one was there before the pass. *)
Theorem Reconcile_empty_buildtype (c : Cluster.t) (cr : Component.t) :
  buildTypeImages !! "" = None ->
  stored c cr ->
  ComponentSpec.BuildType (Component.Spec cr) = "" ->
  Cluster.imageStreams c !! localBuilderKey cr = None ->
  let r := Reconcile buildTypeImages (componentKey cr) c in
  Run.result r = inl ErrBuilderImageNotResolved /\
  is_Some (Cluster.imageStreams (Run.cluster r) !! componentKey cr) /\
  (Cluster.imageStreams c !! componentKey cr = None ->
   Cluster.imageStreams (Run.cluster r) !! componentKey cr =
     Some (newOutputImageStream cr)) /\
  Cluster.buildConfigs (Run.cluster r) = Cluster.buildConfigs c /\
  Cluster.deploymentConfigs (Run.cluster r) = Cluster.deploymentConfigs c /\
  (Cluster.buildConfigs c !! componentKey cr = None ->
   Cluster.buildConfigs (Run.cluster r) !! componentKey cr = None) /\
  (Cluster.deploymentConfigs c !! componentKey cr = None ->
   Cluster.deploymentConfigs (Run.cluster r) !! componentKey cr = None).
Proof.
  intros Hempty Hs Hbt Hl r. subst r.
  rewrite Reconcile_unresolved; [ | exact Hs | ].
  - cbn [Run.result Run.cluster withImageStream Cluster.imageStreams
         Cluster.buildConfigs Cluster.deploymentConfigs].
    split; [ reflexivity | ].
    split; [ apply (lookup_putNew_is_Some (componentKey cr)) | ].
    split; [ apply (lookup_putNew_fresh (componentKey cr)) | ].
    split; [ reflexivity | ]. split; [ reflexivity | ].
    split; intros Hnone; exact Hnone.
  - apply resolve_none; [ exact Hl | ].
    apply newImageStreamFromDocker_unmapped. now rewrite Hbt.
Qed.

(** C3. When the shared namespace holds (under its own namespace and name)
    an image stream named after the component's build type, the pass
    succeeds and issues exactly three
    creates, for the output image stream, the build configuration and the
    deployment configuration: the declared builder image is not created (the
    image streams of the store change at most by the output image), and the
    build configuration it creates builds from the image stream tag
    [<build type>:latest] of the shared namespace. *)
Theorem Reconcile_prefers_local_builder
    (c : Cluster.t) (cr : Component.t) (b : ImageStream.t) :
  stored c cr ->
  Cluster.imageStreams c !! localBuilderKey cr = Some b ->
  keyOf (ImageStream.ObjectMeta b) = localBuilderKey cr ->
  let r := Reconcile buildTypeImages (componentKey cr) c in
  let out := newOutputImageStream cr in
  exists (bc : BuildConfig.t) (dc : DeploymentConfig.t),
    Run.result r = inr tt /\
    Run.trace r =
      [ EvCreate (ObjImageStream out) (answer (Cluster.imageStreams c !! componentKey cr));
        EvCreate (ObjBuildConfig bc) (answer (Cluster.buildConfigs c !! componentKey cr));
        EvCreate (ObjDeploymentConfig dc)
                 (answer (Cluster.deploymentConfigs c !! componentKey cr)) ] /\
    (forall s o, newImageStreamFromDocker buildTypeImages cr = Some s ->
                 ~ In (EvCreate (ObjImageStream s) o) (Run.trace r)) /\
    Cluster.imageStreams (Run.cluster r) =
      putNew (componentKey cr) out (Cluster.imageStreams c) /\
    builderImageOf bc =
      Some {| ObjectReference.Kind := "ImageStreamTag";
              ObjectReference.Namespace := sharedNamespace;
              ObjectReference.Name :=
                ComponentSpec.BuildType (Component.Spec cr) +:+ ":latest" |} /\
    (Cluster.buildConfigs c !! componentKey cr = None ->
     Cluster.buildConfigs (Run.cluster r) !! componentKey cr = Some bc).
Proof.
  intros Hs Hl Hk r out. subst r out.
  destruct (newBuildConfig cr (Some b)) as [bc|] eqn:Hbc; [ | discriminate ].
  destruct (newDeploymentConfig cr (Some (newOutputImageStream cr))) as [dc|] eqn:Hdc;
    [ | discriminate ].
  exists bc, dc.
  erewrite Reconcile_resolved;
    [ | exact Hs | apply resolve_local; exact Hl | exact Hbc | exact Hdc ].
  cbn [Run.result Run.cluster Run.trace app].
  split; [ reflexivity | ]. split; [ reflexivity | ].
  split; [ | split; [ reflexivity | split ] ].
  - intros s o Hsome [Hin | [Hin | [Hin | []]]]; try discriminate Hin.
    injection Hin as Heq _.
    unfold newImageStreamFromDocker in Hsome.
    destruct (buildTypeImages !! _); [ | discriminate ].
    injection Hsome as <-. discriminate Heq.
  - injection Hbc as <-. unfold builderImageOf. cbn.
    unfold ImageStream.Namespace, ImageStream.Name.
    injection Hk as -> ->. reflexivity.
  - intros Hnone.
    cbn [withDeploymentConfig withBuildConfig withImageStream Cluster.buildConfigs].
    rewrite (key_newBuildConfig _ _ _ Hbc).
    now apply lookup_putNew_fresh.
Qed.

(** After a pass on a component with a mapped build type, everything the next
    pass looks for is in the store. *)
Lemma Reconcile_establishes (c : Cluster.t) (cr : Component.t) (image : string) :
  stored c cr ->
  buildTypeImages !! ComponentSpec.BuildType (Component.Spec cr) = Some image ->
  let r := Reconcile buildTypeImages (componentKey cr) c in
  Run.result r = inr tt /\
  stored (Run.cluster r) cr /\
  (is_Some (Cluster.imageStreams c !! localBuilderKey cr) \/
   is_Some (Cluster.imageStreams (Run.cluster r) !! declaredBuilderKey cr)) /\
  (forall k, is_Some (Cluster.imageStreams c !! k) ->
             is_Some (Cluster.imageStreams (Run.cluster r) !! k)) /\
  is_Some (Cluster.imageStreams (Run.cluster r) !! componentKey cr) /\
  is_Some (Cluster.buildConfigs (Run.cluster r) !! componentKey cr) /\
  is_Some (Cluster.deploymentConfigs (Run.cluster r) !! componentKey cr).
Proof.
  intros Hs Hmap r. subst r.
  destruct (resolve_mapped c cr image Hmap)
    as (b & c1 & tr & Hr & Hcomp & Hbcs & Hdcs & Hmono & Hbuilder & _).
  destruct (newBuildConfig cr (Some b)) as [bc|] eqn:Hbc; [ | discriminate ].
  destruct (newDeploymentConfig cr (Some (newOutputImageStream cr))) as [dc|] eqn:Hdc;
    [ | discriminate ].
  erewrite Reconcile_resolved; [ | exact Hs | exact Hr | exact Hbc | exact Hdc ].
  cbn [Run.result Run.cluster withDeploymentConfig withBuildConfig withImageStream
       Cluster.components Cluster.imageStreams Cluster.buildConfigs
       Cluster.deploymentConfigs].
  rewrite (key_newBuildConfig _ _ _ Hbc), (key_newDeploymentConfig _ _ _ Hdc).
  change (keyOf (ImageStream.ObjectMeta (newOutputImageStream cr)))
    with (componentKey cr).
  split; [ reflexivity | ].
  split.
  { unfold stored.
    cbn [withDeploymentConfig withBuildConfig withImageStream Cluster.components].
    rewrite Hcomp. exact Hs. }
  split; [ destruct Hbuilder as [H | H];
           [ left; exact H | right; apply lookup_putNew_mono; exact H ] | ].
  split; [ intros k Hk; apply lookup_putNew_mono, Hmono, Hk | ].
  repeat split; apply lookup_putNew_is_Some.
Qed.

(** A pass on a store that already holds everything changes nothing. *)
Lemma Reconcile_converged (c : Cluster.t) (cr : Component.t) (image : string) :
  stored c cr ->
  buildTypeImages !! ComponentSpec.BuildType (Component.Spec cr) = Some image ->
  (is_Some (Cluster.imageStreams c !! localBuilderKey cr) \/
   is_Some (Cluster.imageStreams c !! declaredBuilderKey cr)) ->
  is_Some (Cluster.imageStreams c !! componentKey cr) ->
  is_Some (Cluster.buildConfigs c !! componentKey cr) ->
  is_Some (Cluster.deploymentConfigs c !! componentKey cr) ->
  let r := Reconcile buildTypeImages (componentKey cr) c in
  Run.result r = inr tt /\
  Run.cluster r = c /\
  Forall (fun e => outcome e = AlreadyExisted) (Run.trace r) /\
  (3 <= length (Run.trace r))%nat.
Proof.
  intros Hs Hmap Hbuilder His Hbcs Hdcs r. subst r.
  destruct (resolve_mapped c cr image Hmap)
    as (b & c1 & tr & Hr & _ & _ & _ & _ & _ & Hsame).
  destruct (Hsame Hbuilder) as [-> Htr].
  destruct (newBuildConfig cr (Some b)) as [bc|] eqn:Hbc; [ | discriminate ].
  destruct (newDeploymentConfig cr (Some (newOutputImageStream cr))) as [dc|] eqn:Hdc;
    [ | discriminate ].
  erewrite Reconcile_resolved; [ | exact Hs | exact Hr | exact Hbc | exact Hdc ].
  cbn [Run.result Run.cluster Run.trace].
  split; [ reflexivity | ]. split; [ | split ].
  - rewrite (withImageStream_held (newOutputImageStream cr) c) by exact His.
    rewrite (withBuildConfig_held bc c)
      by (rewrite (key_newBuildConfig _ _ _ Hbc); exact Hbcs).
    apply withDeploymentConfig_held.
    rewrite (key_newDeploymentConfig _ _ _ Hdc). exact Hdcs.
  - apply Forall_app. split; [ exact Htr | ].
    destruct His as [? ->], Hbcs as [? ->], Hdcs as [? ->].
    repeat constructor.
  - rewrite length_app. cbn. lia.
Qed.

(** What a pass on a component with a mapped build type stores: each
    resource it creates is in the store afterwards unless its key was
    occupied, for the output image stream also by the declared builder image
    that the same pass has just created. *)
Lemma Reconcile_stores (c : Cluster.t) (cr : Component.t) (image : string) :
  stored c cr ->
  buildTypeImages !! ComponentSpec.BuildType (Component.Spec cr) = Some image ->
  let r := Reconcile buildTypeImages (componentKey cr) c in
  let builder :=
    match Cluster.imageStreams c !! localBuilderKey cr with
    | Some l => Some l
    | None => newImageStreamFromDocker buildTypeImages cr
    end in
  (Cluster.imageStreams c !! localBuilderKey cr = None ->
   Cluster.imageStreams c !! declaredBuilderKey cr = None ->
   Cluster.imageStreams (Run.cluster r) !! declaredBuilderKey cr =
     newImageStreamFromDocker buildTypeImages cr) /\
  (Cluster.imageStreams c !! componentKey cr = None ->
   (Cluster.imageStreams c !! localBuilderKey cr = None ->
    declaredBuilderKey cr <> componentKey cr) ->
   Cluster.imageStreams (Run.cluster r) !! componentKey cr =
     Some (newOutputImageStream cr)) /\
  (Cluster.buildConfigs c !! componentKey cr = None ->
   Cluster.buildConfigs (Run.cluster r) !! componentKey cr = newBuildConfig cr builder) /\
  (Cluster.deploymentConfigs c !! componentKey cr = None ->
   Cluster.deploymentConfigs (Run.cluster r) !! componentKey cr =
     newDeploymentConfig cr (Some (newOutputImageStream cr))).
Proof.
  intros Hs Hmap r builder. subst r builder.
  pose proof (newImageStreamFromDocker_mapped _ _ _ Hmap) as Hb.
  set (b := {| ImageStream.ObjectMeta := _ |}) in Hb.
  pose proof (key_newImageStreamFromDocker _ _ _ Hb) as Hkb.
  destruct (newDeploymentConfig cr (Some (newOutputImageStream cr))) as [dc|] eqn:Hdc;
    [ | discriminate ].
  destruct (Cluster.imageStreams c !! localBuilderKey cr) as [l|] eqn:Hl.
  - destruct (newBuildConfig cr (Some l)) as [bc|] eqn:Hbc; [ | discriminate ].
    erewrite Reconcile_resolved;
      [ | exact Hs | exact (resolve_local _ _ _ Hl) | exact Hbc | exact Hdc ].
    cbn [Run.cluster withDeploymentConfig withBuildConfig withImageStream
         Cluster.imageStreams Cluster.buildConfigs Cluster.deploymentConfigs].
    rewrite (key_newBuildConfig _ _ _ Hbc), (key_newDeploymentConfig _ _ _ Hdc).
    change (keyOf (ImageStream.ObjectMeta (newOutputImageStream cr)))
      with (componentKey cr).
    split; [ discriminate | ].
    split; [ intros Hnone _; now apply lookup_putNew_fresh | ].
    split; intros Hnone; now apply lookup_putNew_fresh.
  - rewrite Hb.
    destruct (newBuildConfig cr (Some b)) as [bc|] eqn:Hbc; [ | discriminate ].
    erewrite Reconcile_resolved;
      [ | exact Hs | exact (resolve_declared _ _ _ Hl Hb) | exact Hbc | exact Hdc ].
    cbn [Run.cluster withDeploymentConfig withBuildConfig withImageStream
         Cluster.imageStreams Cluster.buildConfigs Cluster.deploymentConfigs].
    rewrite (key_newBuildConfig _ _ _ Hbc), (key_newDeploymentConfig _ _ _ Hdc), Hkb.
    change (keyOf (ImageStream.ObjectMeta (newOutputImageStream cr)))
      with (componentKey cr).
    split; [ | split; [ | split ] ].
    + intros _ Hnone. apply lookup_putNew_Some. now apply lookup_putNew_fresh.
    + intros Hnone Hne. apply lookup_putNew_fresh.
      rewrite lookup_putNew_ne by (apply Hne; reflexivity). exact Hnone.
    + intros Hnone. now apply lookup_putNew_fresh.
    + intros Hnone. now apply lookup_putNew_fresh.
Qed.

(** C4 (as amended). For a component with a mapped build type, a pass
    succeeds, and a second pass on the store it leaves succeeds as well and
    leaves that store unchanged, every create of the second pass being
    answered already-exists.  Afterwards a builder image (cluster-local, or
    else under the declared builder's key), an image stream under the
    component's key, a build configuration and a deployment configuration are
    in the store; they are the four resources derived from the component when
    no cluster-local builder image exists, the component is not named after
    its build type, and none of their keys was occupied before the first
    pass. *)
Theorem Reconcile_idempotent (c : Cluster.t) (cr : Component.t) (image : string) :
  stored c cr ->
  buildTypeImages !! ComponentSpec.BuildType (Component.Spec cr) = Some image ->
  let r1 := Reconcile buildTypeImages (componentKey cr) c in
  let r2 := Reconcile buildTypeImages (componentKey cr) (Run.cluster r1) in
  Run.result r1 = inr tt /\
  Run.result r2 = inr tt /\
  Run.cluster r2 = Run.cluster r1 /\
  Forall (fun e => outcome e = AlreadyExisted) (Run.trace r2) /\
  (3 <= length (Run.trace r2))%nat /\
  (is_Some (Cluster.imageStreams (Run.cluster r2) !! localBuilderKey cr) \/
   is_Some (Cluster.imageStreams (Run.cluster r2) !! declaredBuilderKey cr)) /\
  is_Some (Cluster.imageStreams (Run.cluster r2) !! componentKey cr) /\
  is_Some (Cluster.buildConfigs (Run.cluster r2) !! componentKey cr) /\
  is_Some (Cluster.deploymentConfigs (Run.cluster r2) !! componentKey cr) /\
  (Cluster.imageStreams c !! localBuilderKey cr = None ->
   Component.Name cr <> ComponentSpec.BuildType (Component.Spec cr) ->
   Cluster.imageStreams c !! declaredBuilderKey cr = None ->
   Cluster.imageStreams c !! componentKey cr = None ->
   Cluster.buildConfigs c !! componentKey cr = None ->
   Cluster.deploymentConfigs c !! componentKey cr = None ->
   derivedResourcesStored buildTypeImages cr (Run.cluster r2)).
Proof.
  intros Hs Hmap r1 r2.
  destruct (Reconcile_establishes c cr image Hs Hmap)
    as (Hok & Hs1 & Hbuilder & Hmono & His & Hbcs & Hdcs).
  fold r1 in Hok, Hs1, Hbuilder, Hmono, His, Hbcs, Hdcs.
  assert (is_Some (Cluster.imageStreams (Run.cluster r1) !! localBuilderKey cr) \/
          is_Some (Cluster.imageStreams (Run.cluster r1) !! declaredBuilderKey cr))
    as Hbuilder1.
  { destruct Hbuilder as [H | H]; [ left; apply Hmono, H | right; exact H ]. }
  destruct (Reconcile_converged (Run.cluster r1) cr image Hs1 Hmap Hbuilder1 His Hbcs Hdcs)
    as (Hok2 & Hsame & Htrace & Hlen).
  fold r2 in Hok2, Hsame, Htrace, Hlen.
  rewrite Hsame.
  do 9 (split; [ first [ assumption | reflexivity ] | ]).
  intros Hl Hne Hdecl Hout Hbc Hdc.
  destruct (Reconcile_stores c cr image Hs Hmap) as (Sb & So & Sbc & Sdc).
  fold r1 in Sb, So, Sbc, Sdc. rewrite Hl in Sbc.
  pose proof (newImageStreamFromDocker_mapped _ _ _ Hmap) as Hb.
  set (b := {| ImageStream.ObjectMeta := _ |}) in Hb.
  exists b. do 2 eexists.
  split; [ exact Hb | ]. split; [ reflexivity | ]. split; [ reflexivity | ].
  split; [ rewrite <- Hb; now apply Sb | ].
  split.
  { apply So; [ exact Hout | ]. intros _ [= Heq]. apply Hne. now rewrite Heq. }
  split; [ rewrite (Sbc Hbc), Hb; reflexivity | now apply Sdc ].
Qed.


End ReconcilerSpec.

(** C2 as stated fails on a store left by an earlier pass: the test's
    component was reconciled with build type [nodejs], then its build type
    was emptied.  The pass on the emptied descriptor returns an error, as
    claimed, but the build configuration and the deployment configuration of
    the earlier pass are still there. *)
Lemma Reconcile_empty_buildtype_after_earlier_pass :
  let cr := testComponent "" "https://somegit.con/myrepo" in
  let c := withComponent cr
             (Run.cluster (Reconcile testBuildTypeImages (componentKey cp) (fakeClient cp []))) in
  let r := Reconcile testBuildTypeImages (componentKey cr) c in
  stored c cr /\
  ComponentSpec.BuildType (Component.Spec cr) = "" /\
  Cluster.imageStreams c !! localBuilderKey cr = None /\
  ~ ((exists e, Run.result r = inl e) /\
     is_Some (Cluster.imageStreams (Run.cluster r) !! componentKey cr) /\
     Cluster.buildConfigs (Run.cluster r) !! componentKey cr = None /\
     Cluster.deploymentConfigs (Run.cluster r) !! componentKey cr = None).
Proof.
  cbv zeta. split; [ reflexivity | ]. split; [ reflexivity | ].
  split; [ reflexivity | ].
  intros (_ & _ & Hbc & _). vm_compute in Hbc. discriminate Hbc.
Qed.

(** C4 as stated fails for a component named after its build type, on a store
    that holds nothing but the component: both passes succeed, but the output
    image stream is not in the store afterwards (its create was answered
    already-exists, the declared builder image holding its key), so that three
    resources exist, not the four derived ones. *)
Lemma Reconcile_idempotent_namesake_three_resources :
  let cr := namesakeComponent "https://somegit.con/myrepo" in
  let c := fakeClient cr [] in
  let r1 := Reconcile testBuildTypeImages (componentKey cr) c in
  let r2 := Reconcile testBuildTypeImages (componentKey cr) (Run.cluster r1) in
  stored c cr /\
  testBuildTypeImages !! ComponentSpec.BuildType (Component.Spec cr) =
    Some "nodeshift/centos7-s2i-nodejs:10.x" /\
  Run.result r1 = inr tt /\
  Run.result r2 = inr tt /\
  (size (Cluster.imageStreams (Run.cluster r2)) +
   size (Cluster.buildConfigs (Run.cluster r2)) +
   size (Cluster.deploymentConfigs (Run.cluster r2)) = 3)%nat /\
  ~ derivedResourcesStored testBuildTypeImages cr (Run.cluster r2).
Proof.
  cbv zeta. split; [ reflexivity | ]. split; [ reflexivity | ].
  split; [ vm_compute; reflexivity | ]. split; [ vm_compute; reflexivity | ].
  split; [ vm_compute; reflexivity | ].
  intros (b & bc & dc & _ & _ & _ & _ & Hout & _).
  vm_compute in Hout. discriminate Hout.
Qed.


(** * The controller test, replayed on the model *)

(** "CR containing all required field creates openshift resources". *)
Example test_creates_openshift_resources :
  let r := Reconcile testBuildTypeImages ("test-project", "MyComp") (fakeClient cp []) in
  Run.result r = inr tt /\
  Cluster.imageStreams (Run.cluster r) !! ("test-project", "MyComp") =
    Some (newOutputImageStream cp) /\
  Cluster.imageStreams (Run.cluster r) !! ("test-project", "nodejs") =
    newImageStreamFromDocker testBuildTypeImages cp /\
  (ImageStreamSpec.Tags ∘ ImageStream.Spec) <$>
     newImageStreamFromDocker testBuildTypeImages cp =
    Some [ {| TagReference.Name := "latest";
              TagReference.From := Some {|
                ObjectReference.Kind := "DockerImage";
                ObjectReference.Namespace := "";
                ObjectReference.Name := "nodeshift/centos7-s2i-nodejs:10.x" |} |} ] /\
  (Cluster.buildConfigs (Run.cluster r) !! ("test-project", "MyComp") ≫= gitURIOf) =
    Some "https://somegit.con/myrepo" /\
  is_Some (Cluster.deploymentConfigs (Run.cluster r) !! ("test-project", "MyComp")) /\
  outcome <$> Run.trace r = [Created; Created; Created; Created].
Proof.
  cbv zeta. repeat split; try (vm_compute; reflexivity).
  eexists. vm_compute. reflexivity.
Qed.

(** "buildtype matches openshift namespace imagestream". *)
Example test_openshift_namespace_imagestream :
  let r := Reconcile testBuildTypeImages ("test-project", "MyComp")
                     (fakeClient cp [isNodejs]) in
  Run.result r = inr tt /\
  is_Some (Cluster.imageStreams (Run.cluster r) !! ("test-project", "MyComp")) /\
  Cluster.imageStreams (Run.cluster r) !! ("test-project", "nodejs") = None /\
  (Cluster.buildConfigs (Run.cluster r) !! ("test-project", "MyComp") ≫= builderImageOf) =
    Some {| ObjectReference.Kind := "ImageStreamTag";
            ObjectReference.Namespace := "openshift";
            ObjectReference.Name := "nodejs:latest" |} /\
  is_Some (Cluster.deploymentConfigs (Run.cluster r) !! ("test-project", "MyComp")).
Proof.
  cbv zeta. repeat split; try (vm_compute; reflexivity);
    eexists; vm_compute; reflexivity.
Qed.

(** "CR without buildtype". *)
Example test_without_buildtype :
  let r := Reconcile testBuildTypeImages ("test-project", "MyComp")
                     (fakeClient (testComponent "" "https://somegit.con/myrepo") []) in
  Run.result r = inl ErrBuilderImageNotResolved /\
  is_Some (Cluster.imageStreams (Run.cluster r) !! ("test-project", "MyComp")) /\
  Cluster.buildConfigs (Run.cluster r) !! ("test-project", "MyComp") = None /\
  Cluster.deploymentConfigs (Run.cluster r) !! ("test-project", "MyComp") = None.
Proof.
  cbv zeta. repeat split; try (vm_compute; reflexivity).
  eexists. vm_compute. reflexivity.
Qed.

(** "CR without codebases". *)
Example test_without_codebases :
  let r := Reconcile testBuildTypeImages ("test-project", "MyComp")
                     (fakeClient (testComponent "nodejs" "") []) in
  Run.result r = inr tt /\
  is_Some (Cluster.imageStreams (Run.cluster r) !! ("test-project", "MyComp")) /\
  (Cluster.buildConfigs (Run.cluster r) !! ("test-project", "MyComp") ≫= gitURIOf) =
    Some "".
Proof.
  cbv zeta. repeat split; try (vm_compute; reflexivity).
  eexists. vm_compute. reflexivity.
Qed.

(** The names the test reads the derived resources back under. *)
Example test_resource_keys :
  (keyOf ∘ ImageStream.ObjectMeta) <$> newImageStreamFromDocker testBuildTypeImages cp =
    Some ("test-project", "nodejs") /\
  keyOf (ImageStream.ObjectMeta (newOutputImageStream cp)) = ("test-project", "MyComp") /\
  (keyOf ∘ BuildConfig.ObjectMeta) <$> newBuildConfig cp (Some isNodejs) =
    Some ("test-project", "MyComp") /\
  (keyOf ∘ DeploymentConfig.ObjectMeta) <$>
     newDeploymentConfig cp (Some (newOutputImageStream cp)) =
    Some ("test-project", "MyComp").
Proof. repeat split. Qed.

(** * The theorems at the fixtures of the controller test *)

Lemma newImageStreamFromDocker_spec_witness :
  testBuildTypeImages !! "" = None /\
  newImageStreamFromDocker testBuildTypeImages (testComponent "" "") = None /\
  exists s : ImageStream.t,
    newImageStreamFromDocker testBuildTypeImages cp = Some s /\
    ImageStream.Name s = "nodejs" /\
    ImageStream.Namespace s = "test-project" /\
    ImageStreamSpec.Tags (ImageStream.Spec s) =
    [ {| TagReference.Name := "latest";
         TagReference.From := Some {|
           ObjectReference.Kind := "DockerImage";
           ObjectReference.Namespace := "";
           ObjectReference.Name := "nodeshift/centos7-s2i-nodejs:10.x" |} |} ].
Proof.
  split; [ reflexivity | ]. split.
  - apply (newImageStreamFromDocker_spec testBuildTypeImages (testComponent "" ""));
      [ reflexivity | left; reflexivity ].
  - apply (newImageStreamFromDocker_spec testBuildTypeImages cp);
      [ reflexivity | discriminate | reflexivity ].
Defined.

Lemma newImageStreamFromDocker_lookup_policy_witness :
  exists s : ImageStream.t,
    newImageStreamFromDocker testBuildTypeImages cp = Some s /\
    ImageLookupPolicy.Local (ImageStreamSpec.LookupPolicy (ImageStream.Spec s)) = false.
Proof.
  apply (newImageStreamFromDocker_lookup_policy testBuildTypeImages cp
           "nodeshift/centos7-s2i-nodejs:10.x").
  reflexivity.
Defined.

Lemma Reconcile_empty_buildtype_witness :
  let cr := testComponent "" "https://somegit.con/myrepo" in
  let r := Reconcile testBuildTypeImages (componentKey cr) (fakeClient cr []) in
  Run.result r = inl ErrBuilderImageNotResolved /\
  Cluster.imageStreams (Run.cluster r) !! componentKey cr =
    Some (newOutputImageStream cr) /\
  Cluster.buildConfigs (Run.cluster r) !! componentKey cr = None /\
  Cluster.deploymentConfigs (Run.cluster r) !! componentKey cr = None.
Proof.
  intros cr r.
  destruct (Reconcile_empty_buildtype testBuildTypeImages (fakeClient cr []) cr)
    as (Herr & _ & Hout & _ & _ & Hbc & Hdc); try reflexivity.
  split; [ exact Herr | ]. split; [ apply Hout; reflexivity | ].
  split; [ apply Hbc | apply Hdc ]; reflexivity.
Defined.

Lemma Reconcile_prefers_local_builder_witness :
  let c := fakeClient cp [isNodejs] in
  let r := Reconcile testBuildTypeImages (componentKey cp) c in
  exists bc : BuildConfig.t,
    Run.result r = inr tt /\
    length (Run.trace r) = 3%nat /\
    Cluster.buildConfigs (Run.cluster r) !! componentKey cp = Some bc /\
    builderImageOf bc =
      Some {| ObjectReference.Kind := "ImageStreamTag";
              ObjectReference.Namespace := "openshift";
              ObjectReference.Name := "nodejs:latest" |}.
Proof.
  intros c r.
  destruct (Reconcile_prefers_local_builder testBuildTypeImages c cp isNodejs)
    as (bc & dc & Hok & Htrace & _ & _ & Hfrom & Hstored); try reflexivity.
  exists bc. split; [ exact Hok | ].
  split; [ fold r in Htrace; rewrite Htrace; reflexivity | ].
  split; [ apply Hstored; reflexivity | exact Hfrom ].
Defined.

Lemma Reconcile_idempotent_witness :
  let r1 := Reconcile testBuildTypeImages (componentKey cp) (fakeClient cp []) in
  let r2 := Reconcile testBuildTypeImages (componentKey cp) (Run.cluster r1) in
  Run.result r1 = inr tt /\
  Run.result r2 = inr tt /\
  Run.cluster r2 = Run.cluster r1 /\
  Forall (fun e => outcome e = AlreadyExisted) (Run.trace r2) /\
  derivedResourcesStored testBuildTypeImages cp (Run.cluster r2).
Proof.
  intros r1 r2.
  destruct (Reconcile_idempotent testBuildTypeImages (fakeClient cp []) cp
              "nodeshift/centos7-s2i-nodejs:10.x")
    as (H1 & H2 & Hsame & Hall & _ & _ & _ & _ & _ & Hfour); try reflexivity.
  split; [ exact H1 | ]. split; [ exact H2 | ]. split; [ exact Hsame | ].
  split; [ exact Hall | ].
  apply Hfour; try reflexivity. discriminate.
Defined.


(** * How the derived resources fit together *)

Lemma string_length_app (s t : string) :
  String.length (s +:+ t) = (String.length s + String.length t)%nat.
Proof.
  induction s as [|a s IH]; [ reflexivity | ].
  change (S (String.length (s +:+ t)) = S (String.length s + String.length t)%nat).
  now rewrite IH.
Qed.

(** Appending the same suffix to two strings keeps them apart. *)
Lemma string_app_inj_r (s1 s2 t : string) : s1 +:+ t = s2 +:+ t -> s1 = s2.
Proof.
  revert s2. induction s1 as [|a s1 IH]; intros [|b s2] Heq.
  - reflexivity.
  - apply (f_equal String.length) in Heq.
    change (String.length t = S (String.length (s2 +:+ t))) in Heq.
    rewrite string_length_app in Heq. lia.
  - apply (f_equal String.length) in Heq.
    change (S (String.length (s1 +:+ t)) = String.length t) in Heq.
    rewrite string_length_app in Heq. lia.
  - change (String a (s1 +:+ t) = String b (s2 +:+ t)) in Heq.
    injection Heq as -> Heq. f_equal. now apply IH.
Qed.

(** X1. [newImageStreamFromDocker] returns nil exactly when the build type is
    not a key of the table: the code tests membership only, the empty build
    type is not a case of its own. *)
Theorem newImageStreamFromDocker_nil_iff
    (buildTypeImages : gmap string string) (cr : Component.t) :
  newImageStreamFromDocker buildTypeImages cr = None <->
  buildTypeImages !! ComponentSpec.BuildType (Component.Spec cr) = None.
Proof.
  unfold newImageStreamFromDocker.
  destruct (buildTypeImages !! _); split; intros H; try reflexivity; discriminate H.
Qed.

(** X2. Extending the table leaves the builder image of every component it
    already served unchanged: the result reads the table at the component's
    build type only. *)
Theorem newImageStreamFromDocker_table_extension
    (tbl tbl' : gmap string string) (cr : Component.t) (b : ImageStream.t) :
  tbl ⊆ tbl' ->
  newImageStreamFromDocker tbl cr = Some b ->
  newImageStreamFromDocker tbl' cr = Some b.
Proof.
  intros Hsub Hb.
  destruct (tbl !! ComponentSpec.BuildType (Component.Spec cr)) as [image|] eqn:Himage.
  - rewrite (newImageStreamFromDocker_mapped tbl cr image Himage) in Hb.
    rewrite <- Hb. apply newImageStreamFromDocker_mapped.
    exact (lookup_weaken _ _ _ _ Himage Hsub).
  - rewrite (newImageStreamFromDocker_unmapped tbl cr Himage) in Hb. discriminate Hb.
Qed.

(** X3. The build configuration built from the declared builder image builds
    from a tag that this image stream declares: its source strategy refers to
    [<builder name>:<tag>] for the one tag of the builder, in the component's
    own namespace. *)
Theorem build_strategy_uses_declared_tag
    (buildTypeImages : gmap string string) (cr : Component.t) (b : ImageStream.t) :
  newImageStreamFromDocker buildTypeImages cr = Some b ->
  exists (bc : BuildConfig.t) (from : ObjectReference.t) (tag : TagReference.t),
    newBuildConfig cr (Some b) = Some bc /\
    builderImageOf bc = Some from /\
    ImageStreamSpec.Tags (ImageStream.Spec b) = [ tag ] /\
    ObjectReference.Kind from = "ImageStreamTag" /\
    ObjectReference.Namespace from = Component.Namespace cr /\
    ObjectReference.Name from = ImageStream.Name b +:+ ":" +:+ TagReference.Name tag.
Proof.
  intros Hb. unfold newImageStreamFromDocker in Hb.
  destruct (buildTypeImages !! _); [ | discriminate Hb ].
  injection Hb as <-.
  do 3 eexists. repeat split.
Qed.

(** X4. The image-change trigger of the deployment configuration watches the
    image stream tag that the build configuration pushes to exactly when the
    output reference handed to [newDeploymentConfig] is named after the
    component, as the one [newOutputImageStream] returns is. *)
Theorem build_output_feeds_deployment_trigger
    (cr : Component.t) (builder output : ImageStream.t) :
  exists (bc : BuildConfig.t) (dc : DeploymentConfig.t) (target source : ObjectReference.t),
    newBuildConfig cr (Some builder) = Some bc /\
    newDeploymentConfig cr (Some output) = Some dc /\
    outputTargetOf bc = Some target /\
    imageChangeSourcesOf dc = [ source ] /\
    (source = target <-> ImageStream.Name output = Component.Name cr) /\
    ImageStream.Name (newOutputImageStream cr) = Component.Name cr.
Proof.
  do 4 eexists.
  split; [ reflexivity | ]. split; [ reflexivity | ].
  split; [ reflexivity | ]. split; [ reflexivity | ].
  split; [ | reflexivity ].
  split.
  - intros [= Heq]. exact (string_app_inj_r _ _ _ Heq).
  - intros ->. reflexivity.
Qed.

(** X5. The image-change trigger of a deployment configuration names only
    containers that its pod template has, and the image of each of them is
    the image stream tag the trigger watches. *)
Theorem deployment_trigger_targets_container (cr : Component.t) (output : ImageStream.t) :
  exists dc : DeploymentConfig.t,
    newDeploymentConfig cr (Some output) = Some dc /\
    Forall (fun params =>
              Forall (fun name =>
                        Exists (fun ct =>
                                  Container.Name ct = name /\
                                  Container.Image ct =
                                    ObjectReference.Name
                                      (DeploymentTriggerImageChangeParams.From params))
                               (containersOf dc))
                     (DeploymentTriggerImageChangeParams.ContainerNames params))
           (imageChangeParamsOf dc) /\
    imageChangeParamsOf dc <> [].
Proof.
  eexists. split; [ reflexivity | ]. split.
  - cbn. repeat constructor.
  - discriminate.
Qed.

(** X6. [newBuildConfig] reads its builder only through the builder's
    namespace and name: two builders give the same build configuration
    exactly when they have the same (namespace, name). *)
Theorem newBuildConfig_builder_key (cr : Component.t) (b b' : ImageStream.t) :
  newBuildConfig cr (Some b) = newBuildConfig cr (Some b') <->
  keyOf (ImageStream.ObjectMeta b) = keyOf (ImageStream.ObjectMeta b').
Proof.
  unfold newBuildConfig, keyOf, ImageStream.Name, ImageStream.Namespace. split.
  - intros [= Hns Hname].
    apply string_app_inj_r in Hname. now rewrite Hns, Hname.
  - intros [= Hns Hname]. now rewrite Hns, Hname.
Qed.

(** X7. [newDeploymentConfig] reads its output reference only through its
    name: two output references give the same deployment configuration exactly
    when they have the same name. *)
Theorem newDeploymentConfig_output_name (cr : Component.t) (o o' : ImageStream.t) :
  newDeploymentConfig cr (Some o) = newDeploymentConfig cr (Some o') <->
  ImageStream.Name o = ImageStream.Name o'.
Proof.
  unfold newDeploymentConfig. split.
  - intros [= Hname _]. exact Hname.
  - intros ->. reflexivity.
Qed.

(** X8. The declared builder image and the output image stream of a component
    have the same (namespace, name) exactly when the component is named after
    its build type; they are different objects even then (the builder
    declares a tag, the output image none). *)
Theorem builder_output_key_collision
    (buildTypeImages : gmap string string) (cr : Component.t) (b : ImageStream.t) :
  newImageStreamFromDocker buildTypeImages cr = Some b ->
  (keyOf (ImageStream.ObjectMeta b) =
   keyOf (ImageStream.ObjectMeta (newOutputImageStream cr)) <->
   ComponentSpec.BuildType (Component.Spec cr) = Component.Name cr) /\
  b <> newOutputImageStream cr.
Proof.
  intros Hb. unfold newImageStreamFromDocker in Hb.
  destruct (buildTypeImages !! _); [ | discriminate Hb ].
  injection Hb as <-. split; [ split | ].
  - intros [= Heq]. exact Heq.
  - cbn. intros ->. reflexivity.
  - discriminate.
Qed.

(** X9. Components of one namespace with the same build type share their
    declared builder image: the two image streams have the same (namespace,
    name) and the same specification. *)
Theorem declared_builder_shared
    (buildTypeImages : gmap string string) (cr cr' : Component.t) (b : ImageStream.t) :
  Component.Namespace cr' = Component.Namespace cr ->
  ComponentSpec.BuildType (Component.Spec cr') = ComponentSpec.BuildType (Component.Spec cr) ->
  newImageStreamFromDocker buildTypeImages cr = Some b ->
  exists b' : ImageStream.t,
    newImageStreamFromDocker buildTypeImages cr' = Some b' /\
    keyOf (ImageStream.ObjectMeta b') = keyOf (ImageStream.ObjectMeta b) /\
    ImageStream.Spec b' = ImageStream.Spec b.
Proof.
  intros Hns Hbt Hb. unfold newImageStreamFromDocker in *.
  rewrite Hbt, Hns.
  destruct (buildTypeImages !! _); [ | discriminate Hb ].
  injection Hb as <-.
  eexists. split; [ reflexivity | ]. split; reflexivity.
Qed.

Lemma newImageStreamFromDocker_table_extension_witness :
  testBuildTypeImages ⊆ <[ "golang" := "centos/go-toolset-7-centos7" ]> testBuildTypeImages /\
  newImageStreamFromDocker
    (<[ "golang" := "centos/go-toolset-7-centos7" ]> testBuildTypeImages) cp =
  newImageStreamFromDocker testBuildTypeImages cp.
Proof.
  assert (testBuildTypeImages
            ⊆ <[ "golang" := "centos/go-toolset-7-centos7" ]> testBuildTypeImages) as Hsub.
  { apply insert_subseteq. reflexivity. }
  split; [ exact Hsub | ].
  destruct (newImageStreamFromDocker testBuildTypeImages cp) as [b|] eqn:Hb;
    [ | discriminate Hb ].
  exact (newImageStreamFromDocker_table_extension _ _ cp b Hsub Hb).
Defined.

Lemma build_strategy_uses_declared_tag_witness :
  exists (bc : BuildConfig.t) (from : ObjectReference.t),
    (newImageStreamFromDocker testBuildTypeImages cp ≫= fun b => newBuildConfig cp (Some b))
      = Some bc /\
    builderImageOf bc = Some from /\
    ObjectReference.Namespace from = "test-project" /\
    ObjectReference.Name from = "nodejs:latest".
Proof.
  destruct (newImageStreamFromDocker testBuildTypeImages cp) as [b|] eqn:Hb;
    [ | discriminate Hb ].
  destruct (build_strategy_uses_declared_tag testBuildTypeImages cp b Hb)
    as (bc & from & tag & Hbc & Hfrom & Htags & _ & Hns & Hname).
  exists bc, from. split; [ exact Hbc | ]. split; [ exact Hfrom | ].
  split; [ exact Hns | ].
  rewrite Hname. injection Hb as <-. injection Htags as <-. reflexivity.
Defined.

Lemma builder_output_key_collision_witness :
  let cr := {| Component.ObjectMeta := {|
                 ObjectMeta.Name := "nodejs";
                 ObjectMeta.Namespace := "test-project";
                 ObjectMeta.Labels := ∅ |};
               Component.Spec := {|
                 ComponentSpec.BuildType := "nodejs";
                 ComponentSpec.Codebase := "" |} |} in
  exists b : ImageStream.t,
    newImageStreamFromDocker testBuildTypeImages cr = Some b /\
    keyOf (ImageStream.ObjectMeta b) =
      keyOf (ImageStream.ObjectMeta (newOutputImageStream cr)) /\
    b <> newOutputImageStream cr.
Proof.
  intros cr.
  destruct (newImageStreamFromDocker testBuildTypeImages cr) as [b|] eqn:Hb;
    [ | discriminate Hb ].
  destruct (builder_output_key_collision testBuildTypeImages cr b Hb) as [Hkey Hne].
  exists b. split; [ reflexivity | ].
  split; [ apply Hkey; reflexivity | exact Hne ].
Defined.

Lemma declared_builder_shared_witness :
  exists b b' : ImageStream.t,
    newImageStreamFromDocker testBuildTypeImages cp = Some b /\
    newImageStreamFromDocker testBuildTypeImages (testComponent "nodejs" "") = Some b' /\
    keyOf (ImageStream.ObjectMeta b') = keyOf (ImageStream.ObjectMeta b) /\
    ImageStream.Spec b' = ImageStream.Spec b.
Proof.
  destruct (newImageStreamFromDocker testBuildTypeImages cp) as [b|] eqn:Hb;
    [ | discriminate Hb ].
  destruct (declared_builder_shared testBuildTypeImages cp (testComponent "nodejs" "") b
              eq_refl eq_refl Hb) as (b' & Hb' & Hkey & Hspec).
  exists b, b'. repeat split; assumption.
Defined.
